(** * The pre-commit packaging descriptor [setup.py]

    The descriptor is a three-statement Python module:

    <<
      from __future__ import annotations
      from setuptools import setup
      setup(name=..., version=..., install_requires=[...], packages=[])
    >>

    It is embedded as a program of a small state-and-exception monad over
    the interpreter state (module globals, and the log of keyword
    dictionaries handed to imported callables).  The record the build tool
    receives is read off that log. *)

From Stdlib Require Import String Ascii List Bool Arith Lia.
From stdpp Require Import base option list gmap strings relations.

Local Open Scope string_scope.
Local Open Scope nat_scope.
Local Open Scope list_scope.
Local Open Scope stdpp_scope.
Set Warnings "-register-all".

(** ** Python values occurring in the descriptor *)

(** String literals, list displays, and objects bound by an import
    statement (identified by the module and attribute they come from). *)
Inductive value : Type :=
| VStr (s : string)
| VList (xs : list value)
| VImported (module attr : string).

(** Exceptions the interpreter can raise while evaluating a module of this
    shape. *)
Inductive exn : Type :=
| NameError (n : string)
| TypeError (msg : string)
| SyntaxError (msg : string)
| KeyError (k : string)
| ValueError (msg : string).

Inductive result (A : Type) : Type :=
| Ok (a : A)
| Err (e : exn).
Arguments Ok {A} a.
Arguments Err {A} e.

(** One call of an imported callable: who was called, with which keyword
    dictionary. *)
Record call_record : Type := CallRecord {
  callee : string * string;
  kwargs : gmap string value
}.

(** Interpreter state: the module's global namespace and the calls made to
    imported callables so far, oldest first. *)
Record interp : Type := Interp {
  globals : gmap string value;
  calls : list call_record
}.

(** ** The evaluation monad *)

Definition M (A : Type) : Type := interp -> result (A * interp).

Definition ret {A} (a : A) : M A := fun st => Ok (a, st).

Definition bind {A B} (m : M A) (k : A -> M B) : M B :=
  fun st =>
    match m st with
    | Ok (a, st') => k a st'
    | Err e => Err e
    end.

Declare Scope py_scope.
Delimit Scope py_scope with py.
Notation "x <- c ;; k" := (bind c (fun x => k))
  (at level 100, c at next level, right associativity) : py_scope.
Notation "c ;;; k" := (bind c (fun _ => k))
  (at level 100, right associativity) : py_scope.

(** ** Statements and expressions used by the descriptor *)

(** [from module import name]: binds [name] in the globals, overwriting
    any earlier binding.  The two modules the descriptor imports are the
    interpreter's own [__future__] and the build tool that is evaluating
    the descriptor, so the import is taken to resolve. *)
Definition import_from (module name : string) : M unit :=
  fun st =>
    Ok (tt, {| globals := <[name := VImported module name]> (globals st);
               calls := calls st |}).

(** Reading a global name. *)
Definition load_name (n : string) : M value :=
  fun st =>
    match globals st !! n with
    | Some v => Ok (v, st)
    | None => Err (NameError n)
    end.

(** Collecting the keyword arguments of a call into a dictionary; a
    repeated keyword is rejected. *)
Fixpoint bind_keywords (kws : list (string * value)) (acc : gmap string value)
  : result (gmap string value) :=
  match kws with
  | [] => Ok acc
  | (k, v) :: rest =>
      match acc !! k with
      | Some _ => Err (SyntaxError "keyword argument repeated")
      | None => bind_keywords rest (<[k := v]> acc)
      end
  end.

(** Calling a value with keyword arguments only.  An imported callable
    receives the dictionary; strings and lists are not callable. *)
Definition call (f : value) (kws : list (string * value)) : M unit :=
  fun st =>
    match f with
    | VImported module attr =>
        match bind_keywords kws ∅ with
        | Ok d =>
            Ok (tt, {| globals := globals st;
                       calls := calls st ++ [CallRecord (module, attr) d] |})
        | Err e => Err e
        end
    | VStr _ => Err (TypeError "'str' object is not callable")
    | VList _ => Err (TypeError "'list' object is not callable")
    end.

(** Running a module body, statement after statement. *)
Fixpoint exec (body : list (M unit)) : M unit :=
  match body with
  | [] => ret tt
  | s :: rest => (s ;;; exec rest)%py
  end.

(** ** The descriptor *)

(** The keyword arguments of the [setup(...)] call, in source order. *)
Definition setup_keywords : list (string * value) :=
  [ ("name", VStr "semgrep_pre_commit_package");
    ("version", VStr "1.12.0");
    ("install_requires", VList [VStr "semgrep==1.12.0"]);
    ("packages", VList []) ].

(** The module body of [setup.py]. *)
Definition setup_py_body : list (M unit) :=
  [ import_from "__future__" "annotations";
    import_from "setuptools" "setup";
    (setup <- load_name "setup" ;; call setup setup_keywords)%py ].

Definition setup_py : M unit := exec setup_py_body.

(** A fresh interpreter for the module: some initial globals (whatever the
    environment put there), no call made yet. *)
Definition fresh (g : gmap string value) : interp :=
  {| globals := g; calls := [] |}.

(** The keyword dictionary the build tool receives when the module is run
    from the initial globals [g]: the module must run to completion and
    make exactly one call, to [setuptools.setup]. *)
Definition handed_record (g : gmap string value) : result (gmap string value) :=
  match setup_py (fresh g) with
  | Err e => Err e
  | Ok (_, st) =>
      match calls st with
      | [CallRecord (m, a) d] =>
          if (String.eqb m "setuptools" && String.eqb a "setup")%bool
          then Ok d
          else Err (TypeError "not the build tool's entry point")
      | _ => Err (TypeError "expected exactly one call of setup")
      end
  end.

(** ** Requirement strings *)

(** Modelled from the spec: the reader of requirement strings belongs to
    the build tool and is not part of the descriptor.  The data model
    describes a dependency as a (name, exact-version) pair; a requirement
    string is read as a distribution name, a version comparison operator
    and a version, and it is an exact pin when the operator is [==] and the
    version carries no [*] wildcard. *)
Inductive specifier_op : Type :=
| OpArbitrary   (* === *)
| OpEq          (* ==  *)
| OpCompatible  (* ~=  *)
| OpNe          (* !=  *)
| OpLe          (* <=  *)
| OpGe          (* >=  *)
| OpLt          (* <   *)
| OpGt.         (* >   *)

Record requirement : Type := Requirement {
  req_name : string;
  req_op : specifier_op;
  req_version : string
}.

Definition between (lo hi : nat) (c : ascii) : bool :=
  let n := nat_of_ascii c in ((lo <=? n)%nat && (n <=? hi)%nat)%bool.

(** Characters of a distribution name: letters, digits, [-], [_], [.]. *)
Definition is_name_char (c : ascii) : bool :=
  (between 97 122 c || between 65 90 c || between 48 57 c
   || Ascii.eqb c "-" || Ascii.eqb c "_" || Ascii.eqb c ".")%bool%char.

(** Longest prefix of name characters, and what follows it. *)
Fixpoint span_name (s : string) : string * string :=
  match s with
  | EmptyString => ("", "")
  | String c s' =>
      if is_name_char c
      then let '(n, rest) := span_name s' in (String c n, rest)
      else ("", s)
  end.

Fixpoint drop_chars (n : nat) (s : string) : string :=
  match n, s with
  | O, _ => s
  | S n', String _ s' => drop_chars n' s'
  | S _, EmptyString => ""
  end.

(** [s.startswith(p)]. *)
Fixpoint starts_with (p s : string) : bool :=
  match p, s with
  | EmptyString, _ => true
  | String _ _, EmptyString => false
  | String a p', String b s' => (Ascii.eqb a b && starts_with p' s')%bool
  end.

Definition read_op (s : string) : option (specifier_op * string) :=
  if starts_with "===" s then Some (OpArbitrary, drop_chars 3 s)
  else if starts_with "==" s then Some (OpEq, drop_chars 2 s)
  else if starts_with "~=" s then Some (OpCompatible, drop_chars 2 s)
  else if starts_with "!=" s then Some (OpNe, drop_chars 2 s)
  else if starts_with "<=" s then Some (OpLe, drop_chars 2 s)
  else if starts_with ">=" s then Some (OpGe, drop_chars 2 s)
  else if starts_with "<" s then Some (OpLt, drop_chars 1 s)
  else if starts_with ">" s then Some (OpGt, drop_chars 1 s)
  else None.

Fixpoint has_char (c : ascii) (s : string) : bool :=
  match s with
  | EmptyString => false
  | String c' s' => (Ascii.eqb c c' || has_char c s')%bool
  end.

Definition parse_requirement (s : string) : option requirement :=
  let '(n, rest) := span_name s in
  match n, read_op rest with
  | String _ _, Some (op, String c v) =>
      Some {| req_name := n; req_op := op; req_version := String c v |}
  | _, _ => None
  end.

Definition exact_pin (r : requirement) : bool :=
  match req_op r with
  | OpEq => negb (has_char "*"%char (req_version r))
  | _ => false
  end.

(** Modelled from the spec: splitting a string at the first occurrence of
    a separator, as Python's [str.partition] does: the part before, the
    separator, the part after; the whole string and two empty strings when
    the separator does not occur. *)
Fixpoint str_partition (sep s : string) : string * string * string :=
  if starts_with sep s then ("", sep, drop_chars (String.length sep) s)
  else
    match s with
    | EmptyString => ("", "", "")
    | String c s' =>
        let '(h, m, t) := str_partition sep s' in (String c h, m, t)
    end.

(** ** The Package Metadata Record *)

(** Modelled from the spec: the data model's record (name, version,
    dependencies as (name, exact-version) pairs, contents), kept in source
    order. *)
Record PackageMetadataRecord : Type := {
  name : string;
  version : string;
  dependencies : list (string * string);
  contents : list string
}.

Definition get_str (d : gmap string value) (k : string) : result string :=
  match d !! k with
  | Some (VStr s) => Ok s
  | Some _ => Err (TypeError k)
  | None => Err (KeyError k)
  end.

Fixpoint strs_of (vs : list value) : option (list string) :=
  match vs with
  | [] => Some []
  | VStr s :: rest =>
      match strs_of rest with
      | Some l => Some (s :: l)
      | None => None
      end
  | _ :: _ => None
  end.

Definition get_strs (d : gmap string value) (k : string) : result (list string) :=
  match d !! k with
  | Some (VList vs) =>
      match strs_of vs with
      | Some l => Ok l
      | None => Err (TypeError k)
      end
  | Some _ => Err (TypeError k)
  | None => Err (KeyError k)
  end.

Fixpoint pins_of (reqs : list string) : result (list (string * string)) :=
  match reqs with
  | [] => Ok []
  | s :: rest =>
      match parse_requirement s with
      | Some r =>
          if exact_pin r
          then match pins_of rest with
               | Ok l => Ok ((req_name r, req_version r) :: l)
               | Err e => Err e
               end
          else Err (ValueError s)
      | None => Err (ValueError s)
      end
  end.

(** Modelled from the spec: how the keyword dictionary is read as a
    Package Metadata Record. *)
Definition to_record (d : gmap string value) : result PackageMetadataRecord :=
  match get_str d "name", get_str d "version",
        get_strs d "install_requires", get_strs d "packages" with
  | Ok n, Ok v, Ok reqs, Ok pkgs =>
      match pins_of reqs with
      | Ok deps =>
          Ok {| name := n; version := v; dependencies := deps; contents := pkgs |}
      | Err e => Err e
      end
  | Err e, _, _, _ => Err e
  | _, Err e, _, _ => Err e
  | _, _, Err e, _ => Err e
  | _, _, _, Err e => Err e
  end.

(** The operation of the specification: evaluate the descriptor and read
    the record the build tool receives. *)
Definition describe (g : gmap string value) : result PackageMetadataRecord :=
  match handed_record g with
  | Ok d => to_record d
  | Err e => Err e
  end.

(** The dictionary and the record the descriptor's literals spell out. *)
Definition setup_dict : gmap string value :=
  <["packages" := VList []]>
    (<["install_requires" := VList [VStr "semgrep==1.12.0"]]>
      (<["version" := VStr "1.12.0"]>
        (<["name" := VStr "semgrep_pre_commit_package"]> ∅))).

Definition setup_record : PackageMetadataRecord :=
  {| name := "semgrep_pre_commit_package";
     version := "1.12.0";
     dependencies := [("semgrep", "1.12.0")];
     contents := [] |}.

(** The call the descriptor makes. *)
Definition setup_call : call_record :=
  CallRecord ("setuptools", "setup") setup_dict.

(** The declared-dependency relation of a record: the package depends on
    each distribution named in its dependency entries. *)
Definition declares (r : PackageMetadataRecord) (a b : string) : Prop :=
  a = name r ∧ b ∈ (dependencies r).*1.

(** The state after the two import statements. *)
Definition after_imports (st : interp) : interp :=
  {| globals :=
       <["setup" := VImported "setuptools" "setup"]>
         (<["annotations" := VImported "__future__" "annotations"]> (globals st));
     calls := calls st |}.


(** * Properties *)

(** ** Evaluation of the building blocks *)

Lemma bind_keywords_setup : bind_keywords setup_keywords ∅ = Ok setup_dict.
Proof. reflexivity. Qed.

Lemma to_record_setup : to_record setup_dict = Ok setup_record.
Proof. vm_compute. reflexivity. Qed.

Lemma import_from_calls m n st st' :
  import_from m n st = Ok (tt, st') -> calls st' = calls st.
Proof. unfold import_from. intros H. injection H as <-. reflexivity. Qed.

Lemma import_from_lookup m n st st' :
  import_from m n st = Ok (tt, st') ->
  globals st' !! n = Some (VImported m n).
Proof.
  unfold import_from. intros H. injection H as <-. cbn.
  apply lookup_insert_eq.
Qed.

Lemma call_globals f kws st st' :
  call f kws st = Ok (tt, st') -> globals st' = globals st.
Proof.
  unfold call. destruct f; try discriminate.
  destruct (bind_keywords kws ∅); try discriminate.
  intros H. injection H as <-. reflexivity.
Qed.

Lemma exec_nil st : exec [] st = Ok (tt, st).
Proof. reflexivity. Qed.

Lemma exec_cons s body st :
  exec (s :: body) st =
  match s st with
  | Ok (_, st') => exec body st'
  | Err e => Err e
  end.
Proof. reflexivity. Qed.

Lemma exec_app b1 b2 st :
  exec (b1 ++ b2) st =
  match exec b1 st with
  | Ok (_, st') => exec b2 st'
  | Err e => Err e
  end.
Proof.
  revert st. induction b1 as [|s b1 IH]; intros st.
  - reflexivity.
  - rewrite <- app_comm_cons, !exec_cons.
    destruct (s st) as [[[] st']|e]; [apply IH | reflexivity].
Qed.

Lemma setup_statement_run st :
  (setup <- load_name "setup" ;; call setup setup_keywords)%py (after_imports st)
  = Ok (tt, {| globals := globals (after_imports st);
               calls := calls st ++ [setup_call] |}).
Proof.
  unfold bind, load_name. cbn [globals after_imports].
  rewrite lookup_insert_eq. unfold call.
  rewrite bind_keywords_setup. reflexivity.
Qed.

(** Running the whole module from any interpreter state: it completes,
    and appends exactly the call of [setup] to the log. *)
Lemma setup_py_run st :
  setup_py st =
  Ok (tt, {| globals := globals (after_imports st);
             calls := calls st ++ [setup_call] |}).
Proof.
  unfold setup_py, setup_py_body.
  rewrite exec_cons; unfold import_from at 1; cbv beta iota.
  rewrite exec_cons; unfold import_from at 1; cbv beta iota.
  cbn [globals calls].
  change (Interp _ (calls st)) with (after_imports st).
  rewrite exec_cons, setup_statement_run. reflexivity.
Qed.

Lemma handed_record_eq g : handed_record g = Ok setup_dict.
Proof. unfold handed_record. rewrite setup_py_run. reflexivity. Qed.

Lemma describe_eq g : describe g = Ok setup_record.
Proof. unfold describe. rewrite handed_record_eq. apply to_record_setup. Qed.

(** Every prefix of the module body runs to completion; the log of calls
    is untouched before the third statement and holds the one new call
    from then on. *)
Lemma setup_py_prefix_run n st :
  exists st',
    exec (take n setup_py_body) st = Ok (tt, st') /\
    calls st' = (calls st ++ (if n <? 3 then [] else [setup_call]))%list.
Proof.
  destruct n as [|[|[|n]]].
  - exists st. split; [reflexivity | cbn; by rewrite app_nil_r].
  - eexists. split; [reflexivity | cbn; by rewrite app_nil_r].
  - eexists. split; [reflexivity | cbn; by rewrite app_nil_r].
  - eexists. split.
    + rewrite take_ge by (cbn; lia). apply setup_py_run.
    + reflexivity.
Qed.

(** ** Splitting at [==] *)

Lemma prefix_eqeq_cons c s :
  Ascii.eqb "="%char c = false -> starts_with "==" (String c s) = false.
Proof.
  intros H. cbn [starts_with]. by rewrite H.
Qed.

(** A name without [=] is recovered, with the version, from the
    requirement string built with [==]. *)
Lemma str_partition_pin n v :
  has_char "="%char n = false ->
  str_partition "==" (n +:+ "==" +:+ v) = (n, "==", v).
Proof.
  induction n as [|c n IH]; intros Hn.
  - reflexivity.
  - cbn [has_char] in Hn. apply orb_false_iff in Hn as [Hc Hn].
    change (String c n +:+ "==" +:+ v) with (String c (n +:+ "==" +:+ v)).
    cbn [str_partition]. rewrite (prefix_eqeq_cons _ _ Hc), (IH Hn).
    reflexivity.
Qed.

(** Readings of other operators, and of a wildcard, are not exact pins. *)
Example range_is_not_a_pin :
  (exact_pin <$> parse_requirement "semgrep>=1.12.0") = Some false /\
  (exact_pin <$> parse_requirement "semgrep~=1.12.0") = Some false /\
  (exact_pin <$> parse_requirement "semgrep==1.12.*") = Some false /\
  pins_of ["semgrep>=1.12.0"] = Err (ValueError "semgrep>=1.12.0").
Proof. repeat split; vm_compute; reflexivity. Qed.

(** A repeated keyword is an error, and so is calling a string. *)
Example bind_keywords_repeated :
  bind_keywords [("name", VStr "a"); ("name", VStr "b")] ∅
  = Err (SyntaxError "keyword argument repeated").
Proof. reflexivity. Qed.

Example call_str_fails st :
  call (VStr "setup") setup_keywords st
  = Err (TypeError "'str' object is not callable").
Proof. reflexivity. Qed.

(** Without the import, the call statement raises [NameError]. *)
Example no_import_name_error :
  exec [ (setup <- load_name "setup" ;; call setup setup_keywords)%py ] (fresh ∅)
  = Err (NameError "setup").
Proof. reflexivity. Qed.

(** ** The claims *)

(** C1. Co-versioning: the version of the record returned by [describe]
    equals the version pinned in its first (and only) dependency entry;
    in the raw keyword dictionary, the requirement string is the
    dependency name, [==], and the value of the [version] keyword. *)
Theorem C1_co_versioning (g : gmap string value) :
  exists (r : PackageMetadataRecord) (dep : string * string)
         (d : gmap string value),
    describe g = Ok r /\
    dependencies r !! 0 = Some dep /\
    version r = dep.2 /\
    handed_record g = Ok d /\
    d !! "version" = Some (VStr (version r)) /\
    d !! "install_requires" = Some (VList [VStr (dep.1 +:+ "==" +:+ version r)]).
Proof.
  exists setup_record, ("semgrep", "1.12.0"), setup_dict.
  rewrite describe_eq, handed_record_eq. repeat split.
Qed.

(** C2. Concrete values: the record returned by [describe] has name
    "semgrep_pre_commit_package", version "1.12.0", and its dependency
    entry is exactly the pair ("semgrep", "1.12.0"). *)
Theorem C2_concrete_values (g : gmap string value) :
  exists r : PackageMetadataRecord,
    describe g = Ok r /\
    name r = "semgrep_pre_commit_package" /\
    version r = "1.12.0" /\
    dependencies r = [("semgrep", "1.12.0")].
Proof. exists setup_record. rewrite describe_eq. repeat split. Qed.

(** C3. Empty contents: for every invocation the contents of the record
    are empty, as a list and as a set, and the [packages] keyword handed
    to the build tool is the empty list. *)
Theorem C3_contents_empty (g : gmap string value) :
  exists (r : PackageMetadataRecord) (d : gmap string value),
    describe g = Ok r /\
    contents r = [] /\
    (list_to_set (contents r) : gset string) = ∅ /\
    handed_record g = Ok d /\
    d !! "packages" = Some (VList []).
Proof.
  exists setup_record, setup_dict.
  rewrite describe_eq, handed_record_eq. repeat split.
Qed.

(** C4. Determinism: two invocations of [describe], from whatever initial
    globals, return equal records and hand equal dictionaries to the
    build tool; running the module twice in one interpreter, from any
    state, logs the same call twice. *)
Theorem C4_describe_deterministic (g1 g2 : gmap string value) :
  describe g1 = describe g2 /\
  handed_record g1 = handed_record g2 /\
  forall st : interp,
    exists st',
      exec (setup_py_body ++ setup_py_body)%list st = Ok (tt, st') /\
      calls st' = (calls st ++ [setup_call; setup_call])%list.
Proof.
  rewrite !describe_eq, !handed_record_eq. repeat split.
  intros st. eexists. split.
  - rewrite exec_app. fold setup_py. rewrite !setup_py_run. reflexivity.
  - cbn [calls]. by rewrite <- app_assoc.
Qed.

(** C5. Total success: [describe] always returns a record and never an
    exception, and the module itself runs to completion from every
    interpreter state. *)
Theorem C5_describe_total (g : gmap string value) :
  (exists r : PackageMetadataRecord, describe g = Ok r) /\
  (forall e : exn, describe g <> Err e) /\
  (forall st : interp, exists st', setup_py st = Ok (tt, st')).
Proof.
  rewrite describe_eq. repeat split.
  - by eexists.
  - discriminate.
  - intros st. eexists. apply setup_py_run.
Qed.

(** C6. Single exact pin: the dependencies of the record returned by
    [describe] hold exactly one entry; it is the reading of the one
    requirement string handed to the build tool, whose operator is [==]
    and which is an exact pin. *)
Theorem C6_single_exact_pin (g : gmap string value) :
  exists (r : PackageMetadataRecord) (d : gmap string value)
         (s : string) (q : requirement),
    describe g = Ok r /\
    handed_record g = Ok d /\
    d !! "install_requires" = Some (VList [VStr s]) /\
    parse_requirement s = Some q /\
    req_op q = OpEq /\
    exact_pin q = true /\
    dependencies r = [(req_name q, req_version q)] /\
    length (dependencies r) = 1.
Proof.
  exists setup_record, setup_dict, "semgrep==1.12.0",
    (Requirement "semgrep" OpEq "1.12.0").
  rewrite describe_eq, handed_record_eq. repeat split.
Qed.

(** C7. The record is built once and not mutated: from any interpreter
    state, after every prefix of the module body the calls logged earlier
    are still there unchanged, the new record appears at the third
    statement and only there, it is the single record added by the whole
    run, and each of its fields holds the value of the literal it was
    built from. *)
Theorem C7_record_built_once_not_mutated (st : interp) (n : nat) :
  exists st_n st_end : interp,
    exec (take n setup_py_body) st = Ok (tt, st_n) /\
    calls st_n = calls st ++ (if n <? 3 then [] else [setup_call]) /\
    setup_py st = Ok (tt, st_end) /\
    calls st_end = calls st ++ [setup_call] /\
    Forall (fun kv => kwargs setup_call !! kv.1 = Some kv.2) setup_keywords /\
    size (kwargs setup_call) = length setup_keywords.
Proof.
  destruct (setup_py_prefix_run n st) as (st_n & Hrun & Hcalls).
  exists st_n. eexists. split; [exact Hrun|]. split; [exact Hcalls|].
  split; [apply setup_py_run|]. split; [reflexivity|]. split.
  - repeat constructor.
  - reflexivity.
Qed.

(** C8. Exactly four fields are set: the dictionary handed to the build
    tool has the keys name, version, install_requires and packages, in
    that source order, and no other; entry points, scripts, extras,
    setup requirements and classifiers are absent. *)
Theorem C8_exactly_four_fields (g : gmap string value) :
  exists d : gmap string value,
    handed_record g = Ok d /\
    setup_keywords.*1 = ["name"; "version"; "install_requires"; "packages"] /\
    dom d = list_to_set setup_keywords.*1 /\
    size d = 4 /\
    (forall k : string, is_Some (d !! k) <-> k ∈ setup_keywords.*1) /\
    d !! "entry_points" = None /\
    d !! "scripts" = None /\
    d !! "extras_require" = None /\
    d !! "setup_requires" = None /\
    d !! "classifiers" = None.
Proof.
  exists setup_dict. rewrite handed_record_eq.
  assert (Hdom : dom setup_dict = list_to_set setup_keywords.*1).
  { unfold setup_dict. rewrite !dom_insert_L, dom_empty_L. cbn. set_solver. }
  repeat split; try reflexivity; try exact Hdom.
  - intros Hk. apply elem_of_dom in Hk. rewrite Hdom in Hk.
    by apply elem_of_list_to_set in Hk.
  - intros Hk. apply elem_of_dom. rewrite Hdom.
    by apply elem_of_list_to_set.
Qed.

(** C9. The sole dependency is the one requirement string
    "semgrep==1.12.0": the dependency name, then [==], then the record's
    version; splitting it at [==] gives back the pair
    ("semgrep", "1.12.0") of the data model. *)
Theorem C9_requirement_string (g : gmap string value) :
  exists (r : PackageMetadataRecord) (d : gmap string value)
         (dep : string * string),
    describe g = Ok r /\
    handed_record g = Ok d /\
    d !! "install_requires" = Some (VList [VStr "semgrep==1.12.0"]) /\
    dependencies r = [dep] /\
    dep = ("semgrep", "1.12.0") /\
    "semgrep==1.12.0" = dep.1 +:+ "==" +:+ version r /\
    str_partition "==" "semgrep==1.12.0" = (dep.1, "==", dep.2).
Proof.
  exists setup_record, setup_dict, ("semgrep", "1.12.0").
  rewrite describe_eq, handed_record_eq.
  do 6 (split; [reflexivity|]).
  apply (str_partition_pin "semgrep" "1.12.0"). reflexivity.
Qed.

(** C10. No self-dependency: the record's name differs from the name of
    its one dependency, and the declared dependency relation has no cycle
    through the package. *)
Theorem C10_no_self_dependency (g : gmap string value) :
  exists (r : PackageMetadataRecord) (dep : string * string),
    describe g = Ok r /\
    dependencies r = [dep] /\
    name r = "semgrep_pre_commit_package" /\
    dep.1 = "semgrep" /\
    name r <> dep.1 /\
    ~ tc (declares r) (name r) (name r).
Proof.
  exists setup_record, ("semgrep", "1.12.0").
  rewrite describe_eq. repeat split; [discriminate|].
  assert (Hstep : forall a b, declares setup_record a b ->
                    a = "semgrep_pre_commit_package" /\ b = "semgrep").
  { intros a b [-> Hb]. split; [reflexivity|].
    cbn in Hb. by apply list_elem_of_singleton in Hb. }
  intros Hcyc. cbn [name setup_record] in Hcyc.
  inversion Hcyc as [x y H|x y z H Htc]; subst.
  - apply Hstep in H as [_ H]. discriminate.
  - apply Hstep in H as [_ ->].
    inversion Htc as [x y H|x y' z H _]; subst;
      apply Hstep in H as [H _]; discriminate.
Qed.

(** ** Further properties of the module *)

(** X1. Namespace frame: run from any interpreter state, the module binds
    the two imported names in its globals, [annotations] and [setup], to
    the imported objects, and leaves the binding of every other name as it
    was; the bound names afterwards are the old ones and these two. *)
Theorem X1_namespace_frame (st : interp) :
  exists st' : interp,
    setup_py st = Ok (tt, st') /\
    globals st' !! "annotations" = Some (VImported "__future__" "annotations") /\
    globals st' !! "setup" = Some (VImported "setuptools" "setup") /\
    (forall k : string,
        k <> "annotations" -> k <> "setup" ->
        globals st' !! k = globals st !! k) /\
    dom (globals st') = {["annotations"; "setup"]} ∪ dom (globals st).
Proof.
  eexists. split; [apply setup_py_run|]. cbn [globals after_imports].
  split; [|split; [|split]].
  - rewrite lookup_insert_ne by done. apply lookup_insert_eq.
  - apply lookup_insert_eq.
  - intros k Ha Hs. rewrite !lookup_insert_ne by congruence. reflexivity.
  - rewrite !dom_insert_L. apply set_eq. intros x.
    rewrite !elem_of_union. tauto.
Qed.

(** X2. Evaluating the module a second time, in the state the first
    evaluation left, succeeds and leaves the globals exactly as the first
    evaluation left them: the imports rebind the same two names to the
    same objects. *)
Theorem X2_reevaluation_keeps_globals (st : interp) :
  exists st1 st2 : interp,
    setup_py st = Ok (tt, st1) /\
    setup_py st1 = Ok (tt, st2) /\
    globals st2 = globals st1.
Proof.
  eexists. eexists. split; [apply setup_py_run|].
  split; [apply setup_py_run|].
  cbn [globals after_imports]. apply map_eq. intros k.
  destruct (decide (k = "setup")) as [->|Hs].
  - by rewrite !lookup_insert_eq.
  - rewrite !(lookup_insert_ne _ "setup") by congruence.
    destruct (decide (k = "annotations")) as [->|Ha].
    + by rewrite !lookup_insert_eq.
    + rewrite !lookup_insert_ne by congruence. reflexivity.
Qed.

